(** * niid_bench / main_scaffold.py : the SCAFFOLD baseline's entry point

    [main] is straight-line glue: it reads the Hydra settings object, calls
    the dataset preparer, the client factory, the evaluation-function
    factory, the strategy instantiator and the Flower simulation runner, and
    prints to standard output.  Every one of those is code outside this
    file, so the embedding keeps them opaque: [main] is a program over a
    signature of external calls, and a run interprets it against an
    arbitrary handler that may return, raise, or never return, and that may
    change the outside world (the settings object included).

    What is modelled concretely is what the file itself computes:
    attribute reads on the settings tree, [os.path.join] (POSIX flavour),
    the argument lists of every call, the order of the calls and the
    propagation of exceptions. *)

From Stdlib Require Import String Ascii List ZArith Bool Lia.
From Stdlib Require Import SpecFloat.
Import ListNotations.
Open Scope string_scope.

Set Implicit Arguments.

(* ------------------------------------------------------------------ *)
(** ** posixpath.join *)

Module PosixPath.

Definition sep : string := "/".

(** [b.startswith(sep)] *)
Definition startswith_sep (b : string) : bool :=
  match b with
  | String c _ => Ascii.eqb c "/"
  | EmptyString => false
  end.

(** [path.endswith(sep)] *)
Fixpoint endswith_sep (path : string) : bool :=
  match path with
  | EmptyString => false
  | String c EmptyString => Ascii.eqb c "/"
  | String _ rest => endswith_sep rest
  end.

Definition is_empty (path : string) : bool :=
  match path with EmptyString => true | _ => false end.

(** One turn of the loop [for b in p] of [posixpath.join]. *)
Definition join_step (path b : string) : string :=
  if startswith_sep b then b
  else if is_empty path || endswith_sep path then path ++ b
  else path ++ sep ++ b.

(** [os.path.join(a, *p)] *)
Definition join (a : string) (p : list string) : string :=
  fold_left join_step p a.

End PosixPath.

(* ------------------------------------------------------------------ *)
(** ** Python exceptions *)

Inductive exn : Type :=
| ConfigAttributeError (key : string)   (* omegaconf: missing key *)
| AttributeError (key : string)         (* attribute read on a scalar *)
| TypeError                             (* os.path.join on a non-string *)
| Foreign (what : string)               (* anything a collaborator raises *)
| MissingMandatoryValue (key : string)  (* omegaconf: the value is ??? *)
| InterpolationKeyError (what : string)
| InterpolationResolutionError (what : string)
| InterpolationToMissingValueError (what : string).

Inductive result (A : Type) : Type :=
| Ok (a : A)
| Err (e : exn).
Arguments Ok {A} a.
Arguments Err {A} e.

(* ------------------------------------------------------------------ *)
(** ** The settings tree (omegaconf's DictConfig) *)

Module OmegaConf.

(** A configuration node: YAML scalars, lists and string-keyed
    dictionaries whose items keep their order, and interpolations.

    The string "???" is omegaconf's marker for a mandatory value that is
    missing.  An interpolation (a value written with dollar-brace
    references) is resolved by omegaconf when it is read, from the root
    configuration, the registered resolvers and the environment; that
    computation is outside this file, so an interpolation node records
    its expression together with the outcome of resolving it: the value
    it stands for, or the exception the resolution raises. *)
#[warnings="-register-all"] Inductive node : Type :=
| VNone
| VBool (b : bool)
| VInt (z : Z)
| VFloat (f : spec_float)
| VStr (s : string)
| VList (elems : list node)
| VDict (items : list (string * node))
| VInterp (expr : string) (resolved : result node).

Fixpoint lookup (key : string) (items : list (string * node)) : option node :=
  match items with
  | [] => None
  | (k, v) :: rest => if String.eqb k key then Some v else lookup key rest
  end.

(** Does a string hold a dollar-brace reference? *)
Fixpoint has_reference (s : string) : bool :=
  match s with
  | String "$" (String "{" _) => true
  | String _ rest => has_reference rest
  | EmptyString => false
  end.

(** What reading the value [v] stored under [key] gives.  The missing
    marker raises MissingMandatoryValue; an interpolation gives its
    recorded outcome, except that one which leads to the missing marker
    raises InterpolationToMissingValueError; a string with a reference
    in it but no recorded outcome cannot be resolved here and is read as
    a resolution error; anything else is returned as it is. *)
Fixpoint resolve (key : string) (v : node) {struct v} : result node :=
  match v with
  | VStr s =>
      if String.eqb s "???" then Err (MissingMandatoryValue key)
      else if has_reference s then Err (InterpolationResolutionError s)
      else Ok v
  | VInterp expr (Ok target) =>
      match resolve key target with
      | Err (MissingMandatoryValue _) =>
          Err (InterpolationToMissingValueError expr)
      | r => r
      end
  | VInterp _ (Err e) => Err e
  | _ => Ok v
  end.

(** [n.key] : attribute read, for a key that is not the name of a method
    of the node.  A dictionary node without the key raises
    ConfigAttributeError, and so does a list node, which has no
    attribute access; with the key, the stored value is resolved.  A
    scalar has no such attribute. *)
Definition getattr (n : node) (key : string) : result node :=
  match n with
  | VDict items =>
      match lookup key items with
      | Some v => resolve key v
      | None => Err (ConfigAttributeError key)
      end
  | VList _ => Err (ConfigAttributeError key)
  | _ => Err (AttributeError key)
  end.

(** [n.k1.k2...] *)
Fixpoint getpath (n : node) (path : list string) : result node :=
  match path with
  | [] => Ok n
  | k :: rest =>
      match getattr n k with
      | Ok v => getpath v rest
      | Err e => Err e
      end
  end.

End OmegaConf.
Import OmegaConf.

(* ------------------------------------------------------------------ *)
(** ** External calls, programs and runs *)

Section Scaffold.

(** Opaque Python objects handed between the collaborators.  A value of
    one of these types stands for a reference: two occurrences of the
    same value are the same object. *)
Variable DataLoader : Type.     (* torch.utils.data.DataLoader *)
Variable ClientFn : Type.       (* Callable[[str], FlowerClientScaffold] *)
Variable EvaluateFn : Type.     (* the server-side evaluation closure *)
Variable Strategy : Type.       (* flwr.server.strategy.Strategy *)
Variable Server : Type.         (* niid_bench.server_scaffold.ScaffoldServer *)
Variable SrvConfig : Type.      (* flwr.server.ServerConfig *)
Variable History : Type.        (* flwr.server.history.History *)

(** Everything outside the settings object: file system, standard
    output, random state, the Ray cluster, ... *)
Variable World : Type.

(** What can be handed to [print] or written to a file. *)
Inductive pyval : Type :=
| PNode (n : node)
| PHistory (h : History).

(** The external operations.  The first ten are the ones [main] uses, with
    the keyword arguments of the source in source order; the last two are
    the file-system primitives of the Python runtime, which [main] could
    call and does not. *)
Inductive call : Type -> Type :=
| OmegaConf_to_yaml (cfg : node) : call string
| print (args : list pyval) : call unit
| load_datasets (config num_clients val_ratio seed : node)
    : call (list DataLoader * list DataLoader * DataLoader)
| HydraConfig_get : call node
| gen_client_fn (trainloaders valloaders : list DataLoader)
    (num_epochs learning_rate model momentum weight_decay : node)
    (client_cv_dir : string) : call ClientFn
| gen_evaluate_fn (testloader : DataLoader) (device model : node)
    : call EvaluateFn
| instantiate (config : node) (evaluate_fn : EvaluateFn) : call Strategy
| ScaffoldServer (strategy : Strategy) (model : node) : call Server
| ServerConfig (num_rounds : node) : call SrvConfig
| start_simulation (server : Server) (client_fn : ClientFn)
    (num_clients : node) (config : SrvConfig)
    (client_resources : list (string * node)) (strategy : Strategy)
    : call History
| os_makedirs (path : string) : call unit
| file_write (path : string) (data : pyval) : call unit.

(** How an external call ends. *)
Inductive reply (R : Type) : Type :=
| Returns (r : R)
| Raises (e : exn)
| Hangs.
Arguments Returns {R} r.
Arguments Raises {R} e.
Arguments Hangs {R}.

(** The state a run threads: the settings object behind [cfg] (mutable
    in Python, and reachable by every collaborator that is handed a part
    of it) and the rest of the world. *)
Record state : Type := mkState { settings : node; world : World }.

(** Straight-line programs over the signature: what a function body
    without loops can do with the settings object and its collaborators. *)
Inductive prog (A : Type) : Type :=
| Ret (a : A)
| Throw (e : exn)
| Deref (k : node -> prog A)                  (* read the object behind cfg *)
| Mutate (f : node -> node) (k : prog A)      (* update it in place *)
| Call (R : Type) (c : call R) (k : R -> prog A).
Arguments Ret {A} a.
Arguments Throw {A} e.
Arguments Deref {A} k.
Arguments Mutate {A} f k.
Arguments Call {A R} c k.

Fixpoint bind {A B : Type} (p : prog A) (f : A -> prog B) : prog B :=
  match p with
  | Ret a => f a
  | Throw e => Throw e
  | Deref k => Deref (fun n => bind (k n) f)
  | Mutate g k => Mutate g (bind k f)
  | Call c k => Call c (fun r => bind (k r) f)
  end.

Definition call_ {R : Type} (c : call R) : prog R := Call c Ret.
Definition lift {A : Type} (r : result A) : prog A :=
  match r with Ok a => Ret a | Err e => Throw e end.

(** [cfg.key] : read through the reference [cfg] at this moment. *)
Definition cfg_attr (key : string) : prog node :=
  Deref (fun cfg => lift (getattr cfg key)).
(** [n.key] on a node already in hand. *)
Definition attr (n : node) (key : string) : prog node :=
  lift (getattr n key).
(** [os.path.join(a, b)] : [os.fspath] refuses what is not a path. *)
Definition os_path_join (a : node) (b : string) : prog string :=
  match a with
  | VStr s => Ret (PosixPath.join s [b])
  | _ => Throw TypeError
  end.

Notation "x <- p ;; k" := (bind p (fun x => k))
  (at level 61, p at next level, right associativity).
Notation "' pat <- p ;; k" := (bind p (fun x => match x with pat => k end))
  (at level 61, pat pattern, p at next level, right associativity).

Definition save_notice : string :=
  "Outputs and Client cvs for scaffold saved to: ".

(** The body of [main(cfg)], statement by statement; arguments are
    evaluated left to right as Python does. *)
Definition main : prog unit :=
  (* 1. Print parsed config *)
  cfg <- Deref Ret ;;
  yaml <- call_ (OmegaConf_to_yaml cfg) ;;
  _ <- call_ (print [PNode (VStr yaml)]) ;;
  (* 2. Prepare your dataset *)
  config <- cfg_attr "dataset" ;;
  num_clients <- cfg_attr "num_clients" ;;
  d1 <- cfg_attr "dataset" ;;
  val_ratio <- attr d1 "val_split" ;;
  d2 <- cfg_attr "dataset" ;;
  seed <- attr d2 "seed" ;;
  ' (trainloaders, valloaders, testloader) <-
      call_ (load_datasets config num_clients val_ratio seed) ;;
  hc <- call_ HydraConfig_get ;;
  rt <- attr hc "runtime" ;;
  save_path <- attr rt "output_dir" ;;
  _ <- call_ (print [PNode (VStr save_notice); PNode save_path]) ;;
  client_cv_dir <- os_path_join save_path "client_cvs" ;;
  (* 3. Define your clients *)
  num_epochs <- cfg_attr "num_epochs" ;;
  learning_rate <- cfg_attr "learning_rate" ;;
  model <- cfg_attr "model" ;;
  momentum <- cfg_attr "momentum" ;;
  weight_decay <- cfg_attr "weight_decay" ;;
  client_fn <-
      call_ (gen_client_fn trainloaders valloaders num_epochs learning_rate
               model momentum weight_decay client_cv_dir) ;;
  device <- cfg_attr "server_device" ;;
  model' <- cfg_attr "model" ;;
  evaluate_fn <- call_ (gen_evaluate_fn testloader device model') ;;
  (* 4. Define your strategy *)
  strategy_cfg <- cfg_attr "strategy" ;;
  strategy <- call_ (instantiate strategy_cfg evaluate_fn) ;;
  (* 5. Start Simulation *)
  model'' <- cfg_attr "model" ;;
  server <- call_ (ScaffoldServer strategy model'') ;;
  num_clients' <- cfg_attr "num_clients" ;;
  num_rounds <- cfg_attr "num_rounds" ;;
  server_config <- call_ (ServerConfig num_rounds) ;;
  r1 <- cfg_attr "client_resources" ;;
  num_cpus <- attr r1 "num_cpus" ;;
  r2 <- cfg_attr "client_resources" ;;
  num_gpus <- attr r2 "num_gpus" ;;
  history <-
      call_ (start_simulation server client_fn num_clients' server_config
               [("num_cpus", num_cpus); ("num_gpus", num_gpus)] strategy) ;;
  _ <- call_ (print [PHistory history]) ;;
  _ <- call_ (print [PNode (VStr save_notice); PNode save_path]) ;;
  (* 6. Save your results : comments only *)
  Ret tt.

(** *** Runs *)

Variable handler : forall R : Type, call R -> state -> reply R * state.

(** One entry of the log of a run: the state in which the call was
    made, the call with its arguments, and how it ended. *)
Inductive event : Type :=
| Ev (R : Type) (pre : state) (c : call R) (r : reply R).

Inductive outcome (A : Type) : Type :=
| Done (a : A)          (* the function returned *)
| Raised (e : exn)      (* an exception left the function *)
| Hung.                 (* a collaborator never returned *)
Arguments Done {A} a.
Arguments Raised {A} e.
Arguments Hung {A}.

Record run_result (A : Type) : Type :=
  mkRun { out : outcome A; final : state; trace : list event }.

Fixpoint run {A : Type} (p : prog A) (st : state) : run_result A :=
  match p with
  | Ret a => mkRun (Done a) st []
  | Throw e => mkRun (Raised e) st []
  | Deref k => run (k (settings st)) st
  | Mutate f k => run k (mkState (f (settings st)) (world st))
  | Call c k =>
      let (r, st') := handler c st in
      match r with
      | Returns v =>
          let res := run (k v) st' in
          mkRun (out res) (final res) (Ev st c r :: trace res)
      | Raises e => mkRun (Raised e) st' [Ev st c r]
      | Hangs => mkRun Hung st' [Ev st c r]
      end
  end.

(** *** Reading the log *)

(** The names of the external operations. *)
Inductive callee : Type :=
| N_to_yaml | N_print | N_load_datasets | N_HydraConfig_get
| N_gen_client_fn | N_gen_evaluate_fn | N_instantiate | N_ScaffoldServer
| N_ServerConfig | N_start_simulation | N_os_makedirs | N_file_write.

Definition callee_of {R : Type} (c : call R) : callee :=
  match c with
  | OmegaConf_to_yaml _ => N_to_yaml
  | print _ => N_print
  | load_datasets _ _ _ _ => N_load_datasets
  | HydraConfig_get => N_HydraConfig_get
  | gen_client_fn _ _ _ _ _ _ _ _ => N_gen_client_fn
  | gen_evaluate_fn _ _ _ => N_gen_evaluate_fn
  | instantiate _ _ => N_instantiate
  | ScaffoldServer _ _ => N_ScaffoldServer
  | ServerConfig _ => N_ServerConfig
  | start_simulation _ _ _ _ _ _ => N_start_simulation
  | os_makedirs _ => N_os_makedirs
  | file_write _ _ => N_file_write
  end.

Definition name_of (e : event) : callee :=
  match e with Ev _ c _ => callee_of c end.

Definition callee_eqb (a b : callee) : bool :=
  match a, b with
  | N_to_yaml, N_to_yaml | N_print, N_print
  | N_load_datasets, N_load_datasets
  | N_HydraConfig_get, N_HydraConfig_get
  | N_gen_client_fn, N_gen_client_fn
  | N_gen_evaluate_fn, N_gen_evaluate_fn
  | N_instantiate, N_instantiate
  | N_ScaffoldServer, N_ScaffoldServer
  | N_ServerConfig, N_ServerConfig
  | N_start_simulation, N_start_simulation
  | N_os_makedirs, N_os_makedirs
  | N_file_write, N_file_write => true
  | _, _ => false
  end.

(** How often a callee was invoked in a log. *)
Definition count (n : callee) (tr : list event) : nat :=
  length (filter (fun e => callee_eqb (name_of e) n) tr).

(** Did the call raise, did it hang? *)
Definition raised (e : event) : option exn :=
  match e with
  | Ev _ _ (Raises x) => Some x
  | _ => None
  end.

Definition hung (e : event) : bool :=
  match e with
  | Ev _ _ Hangs => true
  | _ => false
  end.

(** A log entry with its type index gone: one constructor per callee,
    carrying the state before the call, the arguments and the reply. *)
Inductive entry : Type :=
| E_to_yaml (pre : state) (cfg : node) (r : reply string)
| E_print (pre : state) (args : list pyval) (r : reply unit)
| E_load_datasets (pre : state) (config num_clients val_ratio seed : node)
    (r : reply (list DataLoader * list DataLoader * DataLoader))
| E_HydraConfig_get (pre : state) (r : reply node)
| E_gen_client_fn (pre : state) (trainloaders valloaders : list DataLoader)
    (num_epochs learning_rate model momentum weight_decay : node)
    (client_cv_dir : string) (r : reply ClientFn)
| E_gen_evaluate_fn (pre : state) (testloader : DataLoader)
    (device model : node) (r : reply EvaluateFn)
| E_instantiate (pre : state) (config : node) (evaluate_fn : EvaluateFn)
    (r : reply Strategy)
| E_ScaffoldServer (pre : state) (strategy : Strategy) (model : node)
    (r : reply Server)
| E_ServerConfig (pre : state) (num_rounds : node) (r : reply SrvConfig)
| E_start_simulation (pre : state) (server : Server) (client_fn : ClientFn)
    (num_clients : node) (config : SrvConfig)
    (client_resources : list (string * node)) (strategy : Strategy)
    (r : reply History)
| E_os_makedirs (pre : state) (path : string) (r : reply unit)
| E_file_write (pre : state) (path : string) (data : pyval) (r : reply unit).

Definition view (e : event) : entry :=
  match e with
  | Ev pre c r =>
      match c in call R return reply R -> entry with
      | OmegaConf_to_yaml cfg => E_to_yaml pre cfg
      | print args => E_print pre args
      | load_datasets a b c d => E_load_datasets pre a b c d
      | HydraConfig_get => E_HydraConfig_get pre
      | gen_client_fn a b c d e f g h => E_gen_client_fn pre a b c d e f g h
      | gen_evaluate_fn a b c => E_gen_evaluate_fn pre a b c
      | instantiate a b => E_instantiate pre a b
      | ScaffoldServer a b => E_ScaffoldServer pre a b
      | ServerConfig a => E_ServerConfig pre a
      | start_simulation a b c d e f => E_start_simulation pre a b c d e f
      | os_makedirs a => E_os_makedirs pre a
      | file_write a b => E_file_write pre a b
      end r
  end.

(** The log of a run, entry by entry. *)
Definition entries (tr : list event) : list entry := map view tr.

(** The argument lists handed to [print], in order. *)
Definition printed (tr : list event) : list (list pyval) :=
  flat_map (fun e => match view e with
                     | E_print _ args _ => [args]
                     | _ => []
                     end) tr.

Definition histories_in (vs : list pyval) : list History :=
  flat_map (fun v => match v with PHistory h => [h] | PNode _ => [] end) vs.

(** The histories an entry sends out of the process, with the callee that
    does it: what is printed and what is written to a file. *)
Definition externalised (e : event) : list (callee * History) :=
  match view e with
  | E_print _ args _ => map (pair N_print) (histories_in args)
  | E_file_write _ _ data _ => map (pair N_file_write) (histories_in [data])
  | _ => []
  end.

(** The file-system paths among the arguments of an entry. *)
Definition paths_of (e : event) : list string :=
  match view e with
  | E_gen_client_fn _ _ _ _ _ _ _ _ dir _ => [dir]
  | E_os_makedirs _ path _ => [path]
  | E_file_write _ path _ _ => [path]
  | _ => []
  end.

(** The data handles among the arguments of an entry. *)
Definition handles_of (e : event) : list DataLoader :=
  match view e with
  | E_gen_client_fn _ tl vl _ _ _ _ _ _ _ => tl ++ vl
  | E_gen_evaluate_fn _ t _ _ _ => [t]
  | _ => []
  end.

Definition pre_of (e : event) : state :=
  match e with Ev pre _ _ => pre end.

(** The exceptions raised by the calls of a log, in order. *)
Definition failures (tr : list event) : list exn :=
  flat_map (fun e => match raised e with Some x => [x] | None => [] end) tr.

Fixpoint last_of (tr : list event) : option event :=
  match tr with
  | [] => None
  | [e] => Some e
  | _ :: rest => last_of rest
  end.

(** The histories [start_simulation] returned. *)
Definition simulated (tr : list event) : list History :=
  flat_map (fun e => match view e with
                     | E_start_simulation _ _ _ _ _ _ _ (Returns h) => [h]
                     | _ => []
                     end) tr.

(** A configuration that asks for no client or for no round. *)
Definition zero_clients_or_rounds (cfg : node) : bool :=
  match getattr cfg "num_clients", getattr cfg "num_rounds" with
  | Ok (VInt 0), _ | _, Ok (VInt 0) => true
  | _, _ => false
  end.

(** The run was rejected (an exception left [main]), or it completed on
    a history that is empty; a run that hangs is neither. *)
Definition rejected_or_short_circuited (is_empty : History -> bool)
    (res : run_result unit) : bool :=
  match out res with
  | Raised _ => true
  | Done _ => forallb is_empty (simulated (trace res))
  | Hung => false
  end.

(** The order in which a complete run of [main] names its callees. *)
Definition call_order : list callee :=
  [N_to_yaml; N_print; N_load_datasets; N_HydraConfig_get; N_print;
   N_gen_client_fn; N_gen_evaluate_fn; N_instantiate; N_ScaffoldServer;
   N_ServerConfig; N_start_simulation; N_print; N_print].

End Scaffold.

Arguments PNode {History} n.
Arguments PHistory {History} h.
Arguments OmegaConf_to_yaml {DataLoader ClientFn EvaluateFn Strategy Server SrvConfig History} cfg.
Arguments print {DataLoader ClientFn EvaluateFn Strategy Server SrvConfig History} args.
Arguments load_datasets {DataLoader ClientFn EvaluateFn Strategy Server SrvConfig History} config num_clients val_ratio seed.
Arguments HydraConfig_get {DataLoader ClientFn EvaluateFn Strategy Server SrvConfig History}.
Arguments gen_client_fn {DataLoader ClientFn EvaluateFn Strategy Server SrvConfig History} trainloaders valloaders num_epochs learning_rate model momentum weight_decay client_cv_dir.
Arguments gen_evaluate_fn {DataLoader ClientFn EvaluateFn Strategy Server SrvConfig History} testloader device model.
Arguments instantiate {DataLoader ClientFn EvaluateFn Strategy Server SrvConfig History} config evaluate_fn.
Arguments ScaffoldServer {DataLoader ClientFn EvaluateFn Strategy Server SrvConfig History} strategy model.
Arguments ServerConfig {DataLoader ClientFn EvaluateFn Strategy Server SrvConfig History} num_rounds.
Arguments start_simulation {DataLoader ClientFn EvaluateFn Strategy Server SrvConfig History} server client_fn num_clients config client_resources strategy.
Arguments os_makedirs {DataLoader ClientFn EvaluateFn Strategy Server SrvConfig History} path.
Arguments file_write {DataLoader ClientFn EvaluateFn Strategy Server SrvConfig History} path data.
Arguments Returns {R} r.
Arguments Raises {R} e.
Arguments Hangs {R}.
Arguments Ret {DataLoader ClientFn EvaluateFn Strategy Server SrvConfig History A} a.
Arguments Throw {DataLoader ClientFn EvaluateFn Strategy Server SrvConfig History A} e.
Arguments Deref {DataLoader ClientFn EvaluateFn Strategy Server SrvConfig History A} k.
Arguments Mutate {DataLoader ClientFn EvaluateFn Strategy Server SrvConfig History A} f k.
Arguments Call {DataLoader ClientFn EvaluateFn Strategy Server SrvConfig History A R} c k.
Arguments call_ {DataLoader ClientFn EvaluateFn Strategy Server SrvConfig History R} c.
Arguments lift {DataLoader ClientFn EvaluateFn Strategy Server SrvConfig History A} r.
Arguments cfg_attr {DataLoader ClientFn EvaluateFn Strategy Server SrvConfig History} key.
Arguments attr {DataLoader ClientFn EvaluateFn Strategy Server SrvConfig History} n key.
Arguments os_path_join {DataLoader ClientFn EvaluateFn Strategy Server SrvConfig History} a b.
Arguments main {DataLoader ClientFn EvaluateFn Strategy Server SrvConfig History}.
Arguments Done {A} a.
Arguments Raised {A} e.
Arguments Hung {A}.
Arguments Ev {DataLoader ClientFn EvaluateFn Strategy Server SrvConfig History World R} pre c r.
Arguments call_order : clear implicits.
Arguments E_to_yaml {DataLoader ClientFn EvaluateFn Strategy Server SrvConfig History World} pre cfg r.
Arguments E_print {DataLoader ClientFn EvaluateFn Strategy Server SrvConfig History World} pre args r.
Arguments E_load_datasets {DataLoader ClientFn EvaluateFn Strategy Server SrvConfig History World} pre config num_clients val_ratio seed r.
Arguments E_HydraConfig_get {DataLoader ClientFn EvaluateFn Strategy Server SrvConfig History World} pre r.
Arguments E_gen_client_fn {DataLoader ClientFn EvaluateFn Strategy Server SrvConfig History World} pre trainloaders valloaders num_epochs learning_rate model momentum weight_decay client_cv_dir r.
Arguments E_gen_evaluate_fn {DataLoader ClientFn EvaluateFn Strategy Server SrvConfig History World} pre testloader device model r.
Arguments E_instantiate {DataLoader ClientFn EvaluateFn Strategy Server SrvConfig History World} pre config evaluate_fn r.
Arguments E_ScaffoldServer {DataLoader ClientFn EvaluateFn Strategy Server SrvConfig History World} pre strategy model r.
Arguments E_ServerConfig {DataLoader ClientFn EvaluateFn Strategy Server SrvConfig History World} pre num_rounds r.
Arguments E_start_simulation {DataLoader ClientFn EvaluateFn Strategy Server SrvConfig History World} pre server client_fn num_clients config client_resources strategy r.
Arguments E_os_makedirs {DataLoader ClientFn EvaluateFn Strategy Server SrvConfig History World} pre path r.
Arguments E_file_write {DataLoader ClientFn EvaluateFn Strategy Server SrvConfig History World} pre path data r.

(* ------------------------------------------------------------------ *)
(** ** A small concrete world, to run [main] in *)

Module Demo.

(** Loaders are partition numbers; a client function is the directory it
    closed over; a history lists (round, centralized loss); the world is
    the set of per-client files written so far, as (directory, client). *)
Definition History : Type := list (Z * Z).
Definition World : Type := list (string * nat).
Definition ext_call : Type -> Type := call nat string nat nat nat Z History.

Definition half : spec_float := S754_finite false 1 (-1).

Definition cfg (num_clients num_rounds : Z) : node :=
  VDict
    [("num_clients", VInt num_clients);
     ("num_epochs", VInt 10);
     ("num_rounds", VInt num_rounds);
     ("learning_rate", VFloat half);
     ("momentum", VFloat half);
     ("weight_decay", VFloat (S754_zero false));
     ("server_device", VStr "cpu");
     ("client_resources",
       VDict [("num_cpus", VInt 4); ("num_gpus", VFloat (S754_zero false))]);
     ("dataset",
       VDict [("name", VStr "cifar10"); ("val_split", VFloat (S754_zero false));
              ("seed", VInt 42)]);
     ("model", VDict [("num_classes", VInt 10)]);
     ("strategy", VDict [("fraction_fit", VFloat half)])].

Definition hydra_cfg : node :=
  VDict [("runtime", VDict [("output_dir", VStr "outputs/run1")])].

(** Round 0 is the evaluation of the initial parameters; then one entry
    per round. *)
Definition rounds (num_rounds : Z) : History :=
  map (fun r => (Z.of_nat r, 100 - Z.of_nat r)%Z) (seq 0 (S (Z.to_nat num_rounds))).

Definition handler (R : Type) (c : ext_call R) (st : state World)
  : reply R * state World :=
  match c in call _ _ _ _ _ _ _ R return reply R * state World with
  | OmegaConf_to_yaml _ => (Returns "num_clients: ...", st)
  | print _ => (Returns tt, st)
  | load_datasets _ n _ _ =>
      match n with
      | VInt (Zpos p) =>
          let k := Pos.to_nat p in
          (Returns (seq 0 k, seq k k, 2 * k), st)
      | _ => (Raises (Foreign "ZeroDivisionError"), st)
      end
  | HydraConfig_get => (Returns hydra_cfg, st)
  | gen_client_fn _ _ _ _ _ _ _ dir => (Returns dir, st)
  | gen_evaluate_fn t _ _ => (Returns t, st)
  | instantiate _ ef => (Returns (S ef), st)
  | ScaffoldServer s _ => (Returns s, st)
  | ServerConfig nr =>
      match nr with
      | VInt z => (Returns z, st)
      | _ => (Raises (Foreign "TypeError"), st)
      end
  | start_simulation _ dir n nr _ _ =>
      let clients := match n with VInt z => Z.to_nat z | _ => 0 end in
      let files := if (0 <? nr)%Z then map (pair dir) (seq 0 clients) else [] in
      (Returns (rounds nr), mkState (settings st) (files ++ world st)%list)
  | os_makedirs _ => (Returns tt, st)
  | file_write path _ => (Returns tt, mkState (settings st) ((path, 0) :: world st))
  end.

Definition start (num_clients num_rounds : Z) : state World :=
  mkState (cfg num_clients num_rounds) [].

(** Is a history without a single entry? *)
Definition no_rounds (h : History) : bool :=
  match h with
  | [] => true
  | _ :: _ => false
  end.

(** Two clients, three rounds. *)
Definition st_2_3 : state World := start 2 3.
(** Two clients, no round. *)
Definition st_2_0 : state World := start 2 0.
(** No client. *)
Definition st_0_3 : state World := start 0 3.

End Demo.

(* ------------------------------------------------------------------ *)
(** ** What [main] needs of its surroundings *)

(** The settings paths [main] reads, in the order of their first use. *)
Definition required_paths : list (list string) :=
  [["dataset"]; ["num_clients"]; ["dataset"; "val_split"];
   ["dataset"; "seed"]; ["num_epochs"]; ["learning_rate"]; ["model"];
   ["momentum"]; ["weight_decay"]; ["server_device"]; ["strategy"];
   ["num_rounds"]; ["client_resources"; "num_cpus"];
   ["client_resources"; "num_gpus"]].

Definition resolves (cfg : node) (path : list string) : bool :=
  match getpath cfg path with
  | Ok _ => true
  | Err _ => false
  end.

(** Every path [main] reads can be read. *)
Definition well_formed (cfg : node) : bool :=
  forallb (resolves cfg) required_paths.

(** The Hydra configuration names the run output directory, as a string. *)
Definition names_output_dir (hc : node) : bool :=
  match getpath hc ["runtime"; "output_dir"] with
  | Ok (VStr _) => true
  | _ => false
  end.

(** More concrete worlds: settings with the seed left as a mandatory
    missing value, settings whose number of rounds is an interpolation,
    and a Hydra configuration without an output directory. *)
Module Edge.

Definition put_key (key : string) (v : node) (n : node) : node :=
  match n with
  | VDict items =>
      VDict (map (fun kv => if String.eqb (fst kv) key then (key, v) else kv)
               items)
  | _ => n
  end.

(** Two clients, three rounds, [dataset.seed: ???]. *)
Definition st_missing_seed : state Demo.World :=
  mkState
    (put_key "dataset"
       (VDict [("name", VStr "cifar10");
               ("val_split", VFloat (S754_zero false));
               ("seed", VStr "???")])
       (Demo.cfg 2 3))
    [].

(** Two clients, and a number of rounds given by reference to another
    key, which resolves to three. *)
Definition st_rounds_by_reference : state Demo.World :=
  mkState
    (put_key "num_rounds" (VInterp "${rounds}" (Ok (VInt 3))) (Demo.cfg 2 0))
    [].

(** As [Demo.handler], but Hydra reports no output directory. *)
Definition no_output_dir (R : Type) (c : Demo.ext_call R)
    (st : state Demo.World) : reply R * state Demo.World :=
  match c in call _ _ _ _ _ _ _ R return reply R * state Demo.World with
  | HydraConfig_get =>
      (Returns (VDict [("runtime", VDict [("output_dir", VNone)])]), st)
  | c' => Demo.handler c' st
  end.

End Edge.

(* ------------------------------------------------------------------ *)
(** ** Proof automation: unrolling a run of [main] *)

(** One step of a run under handler [h]: an external call ends in one of
    three ways, an attribute read in one of two, and only a string can be
    joined. *)
Ltac run_step h :=
  match goal with
  | H : getattr ?n ?k = _ |- context [getattr ?n ?k] => rewrite H
  | |- context [h _ ?c ?s] =>
      let r := fresh "r" in
      let s' := fresh "st" in
      let H := fresh "Hcall" in
      destruct (h _ c s) as [[r | r | ] s'] eqn:H
  | |- context [getattr ?n ?k] =>
      let v := fresh "v" in
      let H := fresh "Hget" in
      destruct (getattr n k) as [v | v] eqn:H
  | |- context [let (_, _) := ?p in _] => destruct p
  | |- context [match ?n with VStr _ => _ | _ => _ end] => destruct n
  end; cbn -[getattr PosixPath.join].

Ltac run_leaves h :=
  unfold main, cfg_attr, attr, call_, os_path_join;
  cbn -[getattr PosixPath.join]; repeat run_step h.

(** Every way a run of [main] can go: the goal, a property of the run,
    is left to prove for each explicit result.  The property is kept
    folded while the run is unrolled. *)
Ltac run_main :=
  cbv zeta;
  match goal with
  | |- context [run ?h main ?st] =>
      pattern (run h main st);
      match goal with
      | |- ?P ?r =>
          let Q := fresh "Q" in
          let HQ := fresh "HQ" in
          let H := fresh "H" in
          cut (forall Q : _ -> Prop, (forall x, P x -> Q x) -> Q r);
          [ intro H; exact (H P (fun _ p => p))
          | intros Q HQ; run_leaves h; apply HQ; cbv beta; clear Q HQ ]
      end
  end.

(** Closing a membership goal in an explicit log. *)
Ltac in_log :=
  cbn -[getattr PosixPath.join]; repeat first [left; reflexivity | right].

(** Splitting a membership hypothesis over an explicit log. *)
Ltac split_in H :=
  cbn -[getattr PosixPath.join] in H;
  repeat match type of H with
         | _ \/ _ => destruct H as [H | H]; [try discriminate H | ]
         | False => contradiction H
         end;
  try discriminate H.

Ltac from_entry H := split_in H; inversion H; subst; clear H.

(** A goal that follows from the attribute reads made on the way. *)
Ltac by_reads :=
  cbn [getpath];
  repeat match goal with
         | H : getattr _ _ = _ |- _ => rewrite H
         end;
  reflexivity.

(** The callees of any run, in order, are an initial part of the one
    sequence the source spells out. *)
Ltac prefix_of_call_order :=
  match goal with
  | |- exists k, ?l = _ => exists (length l); reflexivity
  end.

(** What a handler that leaves the settings alone does to the states of
    a run: one equation per call made. *)
Ltac settings_kept Hpres :=
  repeat match goal with
         | H : _ _ ?c ?s = (_, ?s') |- _ =>
             lazymatch goal with
             | _ : settings s' = settings s |- _ => fail
             | _ =>
                 let E := fresh "E" in
                 pose proof (Hpres _ c s) as E; rewrite H in E; cbn in E
             end
         end.

(** The settings path whose read failed at the end of a run: the first
    one for which the reads made on the way give the failure. *)
Ltac failed_read_among paths :=
  lazymatch paths with
  | ?p :: ?rest =>
      first [ exists p; split; [unfold required_paths; in_log | by_reads]
            | failed_read_among rest ]
  end.

Ltac failed_read :=
  let paths := eval unfold required_paths in required_paths in
  failed_read_among paths.

(** Membership in the log of a run in the concrete world. *)
Ltac demo_in := cbv; repeat first [left; reflexivity | right].

(** What a handler that keeps the settings well formed does to the
    states of a run: one fact per call made. *)
Ltac well_formed_kept Hinv :=
  repeat match goal with
         | H : _ _ ?c ?s = (_, ?s'), W : well_formed (settings ?s) = true
           |- _ =>
             lazymatch goal with
             | _ : well_formed (settings s') = true |- _ => fail
             | _ =>
                 let W' := fresh "W" in
                 pose proof (Hinv _ c s W) as W'; rewrite H in W';
                 cbn [snd] in W'
             end
         end.

(** A read that failed on well-formed settings: contradiction. *)
Ltac read_cannot_fail :=
  match goal with
  | Hg : getattr _ _ = Err _ |- _ =>
      repeat match goal with
             | W : well_formed (settings _) = true |- _ =>
                 unfold well_formed, required_paths in W;
                 cbn [forallb] in W;
                 repeat (let W1 := fresh "R" in
                         apply andb_prop in W; destruct W as [W1 W];
                         unfold resolves in W1; cbn [getpath] in W1;
                         repeat match goal with
                                | Hr : getattr _ _ = _ |- _ =>
                                    rewrite Hr in W1
                                end;
                         try discriminate W1; clear W1);
                 clear W
             end
  end.

(* ------------------------------------------------------------------ *)
(** ** Properties of [main] *)

Lemma join_one (a b : string) :
  PosixPath.join a [b] = PosixPath.join_step a b.
Proof. reflexivity. Qed.

(** With a non-empty directory that does not end in a separator, the
    joined path is the directory, a separator, and the component. *)
Lemma join_client_cvs (dir : string) :
  PosixPath.is_empty dir = false ->
  PosixPath.endswith_sep dir = false ->
  PosixPath.join dir ["client_cvs"] = dir ++ "/client_cvs".
Proof.
  intros Hne Hend. rewrite join_one. unfold PosixPath.join_step.
  cbn [PosixPath.startswith_sep Ascii.eqb Bool.eqb].
  rewrite Hne, Hend. reflexivity.
Qed.

(** The attribute read at its edges: a mandatory value that is missing,
    a reference that resolves, one that does not, one that leads to a
    missing value, one without a recorded outcome, and reads on a list, on
    a scalar and of an absent key. *)
Lemma reads_at_the_edges :
  getattr (VDict [("seed", VStr "???")]) "seed" =
    Err (MissingMandatoryValue "seed") /\
  getattr (VDict [("n", VInterp "${m}" (Ok (VInt 3)))]) "n" = Ok (VInt 3) /\
  getattr (VDict [("n", VInterp "${m}" (Err (InterpolationKeyError "m")))])
    "n" = Err (InterpolationKeyError "m") /\
  getattr (VDict [("n", VInterp "${m}" (Ok (VStr "???")))]) "n" =
    Err (InterpolationToMissingValueError "${m}") /\
  getattr (VDict [("n", VStr "${m}")]) "n" =
    Err (InterpolationResolutionError "${m}") /\
  getattr (VList [VInt 1]) "n" = Err (ConfigAttributeError "n") /\
  getattr (VInt 1) "n" = Err (AttributeError "n") /\
  getattr (VDict []) "n" = Err (ConfigAttributeError "n").
Proof. repeat split. Qed.

Section Properties.

Variables DataLoader ClientFn EvaluateFn Strategy Server SrvConfig : Type.
Variables History World : Type.
Variable handler :
  forall R : Type,
    call DataLoader ClientFn EvaluateFn Strategy Server SrvConfig History R ->
    state World -> reply R * state World.

Arguments getattr : simpl never.
Arguments PosixPath.join : simpl never.

(** C1.  In every run, the directory handed to the client factory as
    [client_cv_dir] is the run output directory reported by Hydra
    ([HydraConfig.get().runtime.output_dir], asked for at most once),
    joined with the component "client_cvs"; when that directory is not
    empty and has no trailing separator this is the directory followed by
    "/client_cvs". *)
Theorem client_cv_dir_is_joined_output_dir (st : state World) :
  let tr := trace (run handler main st) in
  count N_HydraConfig_get tr <= 1 /\
  forall pre tl vl ne lr m mo wd dir r,
    In (E_gen_client_fn pre tl vl ne lr m mo wd dir r) (entries tr) ->
    exists pre' hc save_path,
      In (E_HydraConfig_get pre' (Returns hc)) (entries tr) /\
      getpath hc ["runtime"; "output_dir"] = Ok (VStr save_path) /\
      dir = PosixPath.join save_path ["client_cvs"] /\
      (PosixPath.is_empty save_path = false ->
       PosixPath.endswith_sep save_path = false ->
       dir = save_path ++ "/client_cvs").
Proof.
  run_main.
  all: split; [cbn; lia | ].
  all: intros pre tl vl ne lr m mo wd dir rr HIn; from_entry HIn.
  all: do 3 eexists; split; [in_log | ].
  all: split; [by_reads | ].
  all: split; [reflexivity | apply join_client_cvs].
Qed.

(** C6.  [load_datasets] is invoked at most once in any run and exactly
    once in a run that completes; its arguments are [cfg.dataset],
    [cfg.num_clients], [cfg.dataset.val_split] and [cfg.dataset.seed] as
    the settings stand at the call; and the three results are bound in
    order: the first two are the loader lists handed to [gen_client_fn],
    the third is the loader handed to [gen_evaluate_fn]. *)
Theorem load_datasets_called_once_with_cfg (st : state World) :
  let res := run handler main st in
  let tr := trace res in
  count N_load_datasets tr <= 1 /\
  (out res = Done tt -> count N_load_datasets tr = 1) /\
  (forall pre config n v s r,
      In (E_load_datasets pre config n v s r) (entries tr) ->
      getpath (settings pre) ["dataset"] = Ok config /\
      getpath (settings pre) ["num_clients"] = Ok n /\
      getpath (settings pre) ["dataset"; "val_split"] = Ok v /\
      getpath (settings pre) ["dataset"; "seed"] = Ok s) /\
  (forall pre tl vl ne lr m mo wd dir r,
      In (E_gen_client_fn pre tl vl ne lr m mo wd dir r) (entries tr) ->
      exists pre' config n v s t,
        In (E_load_datasets pre' config n v s (Returns (tl, vl, t)))
           (entries tr)) /\
  (forall pre t dev m r,
      In (E_gen_evaluate_fn pre t dev m r) (entries tr) ->
      exists pre' config n v s tl vl,
        In (E_load_datasets pre' config n v s (Returns (tl, vl, t)))
           (entries tr)).
Proof.
  run_main.
  all: split; [cbn; lia | ].
  all: split; [try discriminate; reflexivity | ].
  all: split; [intros pre config n vr sd rr HIn; from_entry HIn;
               repeat split; by_reads | ].
  all: split.
  all: try (intros pre tl vl ne lr m mo wd dir rr HIn; from_entry HIn;
            do 6 eexists; in_log).
  all: intros pre t dev m rr HIn; from_entry HIn; do 7 eexists; in_log.
Qed.

(** C10.  The data handles are kept apart by role.  In every run the
    only log entries with a data handle among their arguments are the
    calls of [gen_client_fn] and [gen_evaluate_fn]; the client factory is
    handed exactly the two loader lists [load_datasets] returned, the
    evaluation-function factory exactly the test loader it returned.  So a
    test loader that is not itself among the client loaders never reaches
    the client factory, and no client loader other than the test loader
    reaches the evaluation-function factory. *)
Theorem data_handles_are_kept_apart (st : state World) :
  let tr := trace (run handler main st) in
  (forall e, In e tr ->
      name_of e <> N_gen_client_fn -> name_of e <> N_gen_evaluate_fn ->
      handles_of e = []) /\
  (forall e, In e tr -> name_of e = N_gen_client_fn ->
      exists pre config n v s tl vl t,
        In (E_load_datasets pre config n v s (Returns (tl, vl, t)))
           (entries tr) /\
        handles_of e = (tl ++ vl)%list /\
        (~ In t (tl ++ vl)%list -> ~ In t (handles_of e))) /\
  (forall e, In e tr -> name_of e = N_gen_evaluate_fn ->
      exists pre config n v s tl vl t,
        In (E_load_datasets pre config n v s (Returns (tl, vl, t)))
           (entries tr) /\
        handles_of e = [t] /\
        (forall x, In x (tl ++ vl)%list -> x <> t -> ~ In x (handles_of e))).
Proof.
  run_main.
  all: split; [intros e HIn Hc He; split_in HIn; subst e; cbn in *;
               congruence | ].
  all: split; intros e HIn Hname; split_in HIn; subst e; cbn in Hname;
    try discriminate Hname.
  all: do 8 eexists; split; [in_log | ]; split; [reflexivity | ].
  all: cbn; intuition congruence.
Qed.

(** C2.  At most one strategy is built in any run, and exactly one in a
    run that reaches [start_simulation] or completes.  [instantiate] is
    given [cfg.strategy] and, as [evaluate_fn], the function that
    [gen_evaluate_fn] returned for the test loader of [load_datasets],
    [cfg.server_device] and [cfg.model].  The strategy handed to
    [ScaffoldServer] and the one handed to [start_simulation] are both
    the object that this one [instantiate] call returned, and the server
    handed to [start_simulation] is the one built around it. *)
Theorem one_strategy_shared_by_server_and_simulation (st : state World) :
  let res := run handler main st in
  let tr := trace res in
  count N_instantiate tr <= 1 /\
  (out res = Done tt -> count N_instantiate tr = 1) /\
  (forall pre scfg ef r,
      In (E_instantiate pre scfg ef r) (entries tr) ->
      getpath (settings pre) ["strategy"] = Ok scfg /\
      exists pre' t dev m,
        In (E_gen_evaluate_fn pre' t dev m (Returns ef)) (entries tr) /\
        getpath (settings pre') ["server_device"] = Ok dev /\
        getpath (settings pre') ["model"] = Ok m /\
        exists pre'' config n v s tl vl,
          In (E_load_datasets pre'' config n v s (Returns (tl, vl, t)))
             (entries tr)) /\
  (forall pre strategy m r,
      In (E_ScaffoldServer pre strategy m r) (entries tr) ->
      exists pre' scfg ef,
        In (E_instantiate pre' scfg ef (Returns strategy)) (entries tr)) /\
  (forall pre server cf n sc res' strategy r,
      In (E_start_simulation pre server cf n sc res' strategy r)
         (entries tr) ->
      count N_instantiate tr = 1 /\
      exists pre' scfg ef pre'' m,
        In (E_instantiate pre' scfg ef (Returns strategy)) (entries tr) /\
        In (E_ScaffoldServer pre'' strategy m (Returns server))
           (entries tr)).
Proof.
  run_main.
  all: split; [cbn; lia | ].
  all: split; [try discriminate; reflexivity | ].
  all: split; [intros pre scfg ef rr HIn; from_entry HIn;
               (split; [by_reads | ]);
               do 4 eexists; (split; [in_log | ]);
               (split; [by_reads | ]); (split; [by_reads | ]);
               do 7 eexists; in_log | ].
  all: split; [intros pre strategy m rr HIn; from_entry HIn;
               do 3 eexists; in_log | ].
  all: intros pre server cf n sc res' strategy rr HIn; from_entry HIn.
  all: split; [reflexivity | ].
  all: do 5 eexists; split; in_log.
Qed.

(** C3.  When a collaborator call raises, [main] does nothing more: the
    raising call is the last entry of the log, no earlier call raised,
    and the exception it raised is the one that leaves [main].  No call
    is tried again and none is made in recovery, since the callees of any
    run are an initial part of the fixed sequence of the source. *)
Theorem exceptions_propagate_unhandled (st : state World) :
  let res := run handler main st in
  let tr := trace res in
  (forall e, In e (failures tr) ->
      out res = Raised e /\
      (exists ev, last_of tr = Some ev /\ raised ev = Some e) /\
      failures (removelast tr) = []) /\
  (exists k, map (@name_of _ _ _ _ _ _ _ _) tr = firstn k call_order).
Proof.
  run_main.
  all: split; [ | prefix_of_call_order].
  all: intros e HIn; cbn in HIn; try contradiction HIn.
  all: destruct HIn as [<- | []].
  all: split; [reflexivity | ]; split; [ | reflexivity].
  all: eexists; split; reflexivity.
Qed.

(** C4.  A run that completes has printed exactly four times: the YAML
    text that [OmegaConf.to_yaml] returned for the settings, the
    save-path notice with the run output directory, the history that
    [start_simulation] returned, and the same notice with the same
    directory again.  The first two prints come before the simulation
    and the last two after it. *)
Theorem stdout_of_a_completed_run (st : state World) :
  let res := run handler main st in
  let tr := trace res in
  out res = Done tt ->
  exists yaml save_path history,
    printed tr =
      [[PNode (VStr yaml)];
       [PNode (VStr save_notice); PNode (VStr save_path)];
       [PHistory history];
       [PNode (VStr save_notice); PNode (VStr save_path)]] /\
    hd_error (entries tr) = Some (E_to_yaml st (settings st) (Returns yaml)) /\
    (exists pre hc,
        In (E_HydraConfig_get pre (Returns hc)) (entries tr) /\
        getpath hc ["runtime"; "output_dir"] = Ok (VStr save_path)) /\
    (exists before sim after,
        tr = (before ++ sim :: after)%list /\
        simulated [sim] = [history] /\
        printed before =
          [[PNode (VStr yaml)];
           [PNode (VStr save_notice); PNode (VStr save_path)]] /\
        printed after =
          [[PHistory history];
           [PNode (VStr save_notice); PNode (VStr save_path)]]).
Proof.
  run_main.
  all: intros Hdone; try discriminate Hdone.
  do 3 eexists. split; [reflexivity | ]. split; [reflexivity | ].
  split.
  - do 2 eexists. split; [in_log | by_reads].
  - eexists [_; _; _; _; _; _; _; _; _; _], _, _.
    split; [reflexivity | ]. repeat split.
Qed.

(** C5.  [main] sends a history out of the process only by printing it:
    no run writes a file, and the histories printed or written in a run
    are none at all, or the one history that [start_simulation] returned,
    printed once.  A run that completes has printed it.  After the
    simulation the source calls [print] twice and nothing else. *)
Theorem history_is_only_printed (st : state World) :
  let res := run handler main st in
  let tr := trace res in
  count N_file_write tr = 0 /\
  (flat_map (@externalised _ _ _ _ _ _ _ _) tr = [] \/
   exists h, simulated tr = [h] /\
             flat_map (@externalised _ _ _ _ _ _ _ _) tr = [(N_print, h)]) /\
  (out res = Done tt ->
   exists h, simulated tr = [h] /\
             flat_map (@externalised _ _ _ _ _ _ _ _) tr = [(N_print, h)]) /\
  (exists k, map (@name_of _ _ _ _ _ _ _ _) tr = firstn k call_order).
Proof.
  run_main.
  all: split; [reflexivity | ].
  all: split; [first [left; reflexivity | right; eexists; split; reflexivity] | ].
  all: split; [ | prefix_of_call_order].
  all: intros Hdone; try discriminate Hdone.
  eexists; split; reflexivity.
Qed.

(** C9.  [main] touches the file system in no run: its log has no
    [os.makedirs] and no file write.  The only entry with a path among
    its arguments is the call of [gen_client_fn], and that path is the
    run output directory joined with "client_cvs": the directory is
    named by [main] and left to the clients to create and fill. *)
Theorem main_writes_no_file (st : state World) :
  let tr := trace (run handler main st) in
  count N_os_makedirs tr = 0 /\
  count N_file_write tr = 0 /\
  (forall e p, In e tr -> In p (paths_of e) ->
      name_of e = N_gen_client_fn /\
      exists pre hc save_path,
        In (E_HydraConfig_get pre (Returns hc)) (entries tr) /\
        getpath hc ["runtime"; "output_dir"] = Ok (VStr save_path) /\
        p = PosixPath.join save_path ["client_cvs"]).
Proof.
  run_main.
  all: split; [reflexivity | ]; split; [reflexivity | ].
  all: intros e p HIn Hp; split_in HIn; subst e; cbn in Hp;
    try contradiction Hp.
  all: destruct Hp as [<- | []]; split; [reflexivity | ].
  all: do 3 eexists; split; [in_log | ]; split; [by_reads | reflexivity].
Qed.

(** C8.  [main] only reads the settings.  Every configuration value it
    hands to a collaborator is the value found in the settings object under
    the path the source names, as the settings stood when the argument was
    evaluated (for [num_clients] of [start_simulation] that is just before
    [ServerConfig] was called).  [main] has no step that writes the
    settings: if no collaborator changes them, every call is made with the
    settings as they were on entry, and they are the same on exit. *)
Theorem settings_are_only_read (st : state World) :
  let res := run handler main st in
  let tr := trace res in
  (forall pre config n v s r,
      In (E_load_datasets pre config n v s r) (entries tr) ->
      getpath (settings pre) ["dataset"] = Ok config /\
      getpath (settings pre) ["num_clients"] = Ok n /\
      getpath (settings pre) ["dataset"; "val_split"] = Ok v /\
      getpath (settings pre) ["dataset"; "seed"] = Ok s) /\
  (forall pre tl vl ne lr m mo wd dir r,
      In (E_gen_client_fn pre tl vl ne lr m mo wd dir r) (entries tr) ->
      getpath (settings pre) ["num_epochs"] = Ok ne /\
      getpath (settings pre) ["learning_rate"] = Ok lr /\
      getpath (settings pre) ["model"] = Ok m /\
      getpath (settings pre) ["momentum"] = Ok mo /\
      getpath (settings pre) ["weight_decay"] = Ok wd) /\
  (forall pre t dev m r,
      In (E_gen_evaluate_fn pre t dev m r) (entries tr) ->
      getpath (settings pre) ["server_device"] = Ok dev /\
      getpath (settings pre) ["model"] = Ok m) /\
  (forall pre scfg ef r,
      In (E_instantiate pre scfg ef r) (entries tr) ->
      getpath (settings pre) ["strategy"] = Ok scfg) /\
  (forall pre strategy m r,
      In (E_ScaffoldServer pre strategy m r) (entries tr) ->
      getpath (settings pre) ["model"] = Ok m) /\
  (forall pre nr r,
      In (E_ServerConfig pre nr r) (entries tr) ->
      getpath (settings pre) ["num_rounds"] = Ok nr) /\
  (forall pre server cf n sc rs strategy r,
      In (E_start_simulation pre server cf n sc rs strategy r) (entries tr) ->
      (exists cpus gpus,
          rs = [("num_cpus", cpus); ("num_gpus", gpus)] /\
          getpath (settings pre) ["client_resources"; "num_cpus"] = Ok cpus /\
          getpath (settings pre) ["client_resources"; "num_gpus"] = Ok gpus) /\
      (exists pre' nr,
          In (E_ServerConfig pre' nr (Returns sc)) (entries tr) /\
          getpath (settings pre') ["num_clients"] = Ok n)) /\
  ((forall (R : Type) (c : call _ _ _ _ _ _ _ R) (s : state World),
       settings (snd (handler c s)) = settings s) ->
   settings (final res) = settings st /\
   forall e, In e tr -> settings (pre_of e) = settings st).
Proof.
  run_main.
  all: split; [intros pre config n vr sd rr HIn; from_entry HIn;
               repeat split; by_reads | ].
  all: split; [intros pre tl vl ne lr m mo wd dir rr HIn; from_entry HIn;
               repeat split; by_reads | ].
  all: split; [intros pre t dev m rr HIn; from_entry HIn;
               repeat split; by_reads | ].
  all: split; [intros pre scfg ef rr HIn; from_entry HIn; by_reads | ].
  all: split; [intros pre strategy m rr HIn; from_entry HIn; by_reads | ].
  all: split; [intros pre nr rr HIn; from_entry HIn; by_reads | ].
  all: split; [intros pre server cf n sc rs strategy rr HIn; from_entry HIn;
               (split; [do 2 eexists; split; [reflexivity | ];
                        split; by_reads
                       | do 2 eexists; split; [in_log | by_reads]]) | ].
  all: intros Hpres; settings_kept Hpres.
  all: split; [cbn; congruence | ].
  all: intros e HIn; split_in HIn; subst e; cbn; congruence.
Qed.

(** C7, as the code has it.  [main] makes no check of [num_clients] or
    [num_rounds]: whatever their values, zero included, it hands
    [cfg.num_clients] to [load_datasets] and to [start_simulation] and
    [cfg.num_rounds] to [ServerConfig] as read.  A run does not return
    exactly when a collaborator call does not return.  An exception
    leaves [main] only in three ways: a collaborator raised it; or no
    collaborator raised and it is the exception with which the read of one
    of the settings paths of the source fails in the state the run ended
    in; or no collaborator raised and it comes from the run output
    directory, as the exception of reading it from the Hydra
    configuration or as the TypeError of joining a value that is not a
    string.  [main] raises nothing else of its own.  A run that completes
    has printed the one history [start_simulation] returned, whatever it
    holds. *)
Theorem sizes_are_forwarded_unchecked (st : state World) :
  let res := run handler main st in
  let tr := trace res in
  (forall pre config n v s r,
      In (E_load_datasets pre config n v s r) (entries tr) ->
      getattr (settings pre) "num_clients" = Ok n) /\
  (forall pre nr r,
      In (E_ServerConfig pre nr r) (entries tr) ->
      getattr (settings pre) "num_rounds" = Ok nr) /\
  (forall pre server cf n sc rs strategy r,
      In (E_start_simulation pre server cf n sc rs strategy r) (entries tr) ->
      exists pre' nr,
        In (E_ServerConfig pre' nr (Returns sc)) (entries tr) /\
        getattr (settings pre') "num_clients" = Ok n /\
        getattr (settings pre') "num_rounds" = Ok nr) /\
  (out res = Hung <-> existsb (@hung _ _ _ _ _ _ _ _) tr = true) /\
  (forall e, out res = Raised e ->
      In e (failures tr) \/
      (failures tr = [] /\
       exists path,
         In path required_paths /\
         getpath (settings (final res)) path = Err e) \/
      (failures tr = [] /\
       exists pre hc,
         In (E_HydraConfig_get pre (Returns hc)) (entries tr) /\
         (getpath hc ["runtime"; "output_dir"] = Err e \/
          (e = TypeError /\
           exists v, getpath hc ["runtime"; "output_dir"] = Ok v /\
                     forall s, v <> VStr s)))) /\
  (out res = Done tt ->
   exists h, simulated tr = [h] /\ In [PHistory h] (printed tr)).
Proof.
  run_main.
  all: split; [intros pre config n vr sd rr HIn; from_entry HIn; by_reads | ].
  all: split; [intros pre nr rr HIn; from_entry HIn; by_reads | ].
  all: split; [intros pre server cf n sc rs strategy rr HIn; from_entry HIn;
               do 2 eexists; (split; [in_log | split; by_reads]) | ].
  all: split; [cbn; split; intros; (discriminate || reflexivity) | ].
  all: split; [intros e He; try discriminate He; injection He as <-;
               cbn [final out trace];
               first [left; cbn; left; reflexivity
                     | right; left; split; [reflexivity | failed_read]
                     | right; right; split; [reflexivity | ];
                       do 2 eexists; split; [in_log | ];
                       first [left; by_reads
                             | right; split; [reflexivity | ];
                               eexists; split; [by_reads | ];
                               intros s; discriminate]] | ].
  all: intros Hdone; try discriminate Hdone.
  eexists; split; [reflexivity | in_log].
Qed.

End Properties.

(* ------------------------------------------------------------------ *)
(** ** The properties at work in the concrete world *)

(** The concrete handler never touches the settings. *)
Lemma demo_handler_keeps_settings
    (R : Type) (c : Demo.ext_call R) (s : state Demo.World) :
  settings (snd (Demo.handler c s)) = settings s.
Proof.
  destruct c; cbn; try reflexivity.
  - destruct num_clients as [ | | [ | | ] | | | | | ]; reflexivity.
  - destruct num_rounds; reflexivity.
Qed.

(** [main] at the edges of its settings: with [dataset.seed: ???] the
    run ends on the read of the seed, after the configuration has been
    printed and before the dataset is touched; with the number of rounds
    given by reference, the value it resolves to is what [ServerConfig]
    gets, and the run completes. *)
Lemma runs_at_the_edges :
  out (run Demo.handler main Edge.st_missing_seed) =
    Raised (MissingMandatoryValue "seed") /\
  map (@name_of _ _ _ _ _ _ _ _)
    (trace (run Demo.handler main Edge.st_missing_seed)) =
    [N_to_yaml; N_print] /\
  well_formed (settings Edge.st_missing_seed) = false /\
  out (run Demo.handler main Edge.st_rounds_by_reference) = Done tt /\
  well_formed (settings Edge.st_rounds_by_reference) = true /\
  (exists pre,
      In (E_ServerConfig pre (VInt 3) (Returns 3%Z))
         (entries (trace (run Demo.handler main Edge.st_rounds_by_reference)))).
Proof.
  repeat split. eexists. cbv. do 9 right. left. reflexivity.
Qed.

(** C1 at work: two clients, three rounds, output directory
    "outputs/run1". *)
Lemma client_cv_dir_is_joined_output_dir_witness :
  exists pre' hc save_path,
    In (E_HydraConfig_get pre' (Returns hc))
       (entries (trace (run Demo.handler main Demo.st_2_3))) /\
    getpath hc ["runtime"; "output_dir"] = Ok (VStr save_path) /\
    "outputs/run1/client_cvs" = PosixPath.join save_path ["client_cvs"] /\
    (PosixPath.is_empty save_path = false ->
     PosixPath.endswith_sep save_path = false ->
     "outputs/run1/client_cvs" = save_path ++ "/client_cvs").
Proof.
  eapply (proj2 (client_cv_dir_is_joined_output_dir Demo.handler Demo.st_2_3)).
  demo_in.
Defined.

(** C6 at work: the one call of [load_datasets] and where its three
    results go. *)
Lemma load_datasets_called_once_with_cfg_witness :
  count N_load_datasets (trace (run Demo.handler main Demo.st_2_3)) = 1 /\
  (exists (pre : state Demo.World) config n v s,
      getpath (settings pre) ["dataset"] = Ok config /\
      getpath (settings pre) ["num_clients"] = Ok n /\
      getpath (settings pre) ["dataset"; "val_split"] = Ok v /\
      getpath (settings pre) ["dataset"; "seed"] = Ok s) /\
  (exists pre' config n v s t,
      In (E_load_datasets pre' config n v s (Returns ([0; 1], [2; 3], t)))
         (entries (trace (run Demo.handler main Demo.st_2_3)))) /\
  (exists pre' config n v s tl vl,
      In (E_load_datasets pre' config n v s (Returns (tl, vl, 4)))
         (entries (trace (run Demo.handler main Demo.st_2_3)))).
Proof.
  destruct (load_datasets_called_once_with_cfg Demo.handler Demo.st_2_3)
    as (_ & T1 & T2 & T3 & T4).
  split; [apply T1; reflexivity | ].
  split; [do 5 eexists; eapply T2; demo_in | ].
  split; [eapply T3; demo_in | eapply T4; demo_in].
Defined.

(** C10 at work: the simulation call carries no handle, the client
    factory the loader lists, the evaluation factory the test loader. *)
Lemma data_handles_are_kept_apart_witness :
  (exists e,
      In e (trace (run Demo.handler main Demo.st_2_3)) /\
      name_of e = N_start_simulation /\ handles_of e = []) /\
  (exists e,
      In e (trace (run Demo.handler main Demo.st_2_3)) /\
      name_of e = N_gen_client_fn /\
      exists pre config n v s tl vl t,
        In (E_load_datasets pre config n v s (Returns (tl, vl, t)))
           (entries (trace (run Demo.handler main Demo.st_2_3))) /\
        handles_of e = (tl ++ vl)%list /\
        (~ In t (tl ++ vl)%list -> ~ In t (handles_of e))) /\
  (exists e,
      In e (trace (run Demo.handler main Demo.st_2_3)) /\
      name_of e = N_gen_evaluate_fn /\
      exists pre config n v s tl vl t,
        In (E_load_datasets pre config n v s (Returns (tl, vl, t)))
           (entries (trace (run Demo.handler main Demo.st_2_3))) /\
        handles_of e = [t] /\
        (forall x, In x (tl ++ vl)%list -> x <> t -> ~ In x (handles_of e))).
Proof.
  destruct (data_handles_are_kept_apart Demo.handler Demo.st_2_3)
    as (T1 & T2 & T3).
  split; [ | split].
  - eexists. split; [cbv; do 10 right; left; reflexivity | ].
    split; [reflexivity | ].
    eapply T1; [demo_in | discriminate | discriminate].
  - eexists. split; [cbv; do 5 right; left; reflexivity | ].
    split; [reflexivity | ].
    eapply T2; [demo_in | reflexivity].
  - eexists. split; [cbv; do 6 right; left; reflexivity | ].
    split; [reflexivity | ].
    eapply T3; [demo_in | reflexivity].
Defined.
(** C2 at work: strategy number 5 is built once and shared. *)
Lemma one_strategy_shared_by_server_and_simulation_witness :
  count N_instantiate (trace (run Demo.handler main Demo.st_2_3)) = 1 /\
  (exists (pre : state Demo.World) scfg ef,
      getpath (settings pre) ["strategy"] = Ok scfg /\
      exists (pre' : state Demo.World) t dev m,
        In (E_gen_evaluate_fn pre' t dev m (Returns ef))
           (entries (trace (run Demo.handler main Demo.st_2_3))) /\
        getpath (settings pre') ["server_device"] = Ok dev /\
        getpath (settings pre') ["model"] = Ok m /\
        exists pre'' config n v s tl vl,
          In (E_load_datasets pre'' config n v s (Returns (tl, vl, t)))
             (entries (trace (run Demo.handler main Demo.st_2_3)))) /\
  (exists pre' scfg ef,
      In (E_instantiate pre' scfg ef (Returns 5))
         (entries (trace (run Demo.handler main Demo.st_2_3)))) /\
  (count N_instantiate (trace (run Demo.handler main Demo.st_2_3)) = 1 /\
   exists pre' scfg ef pre'' m,
     In (E_instantiate pre' scfg ef (Returns 5))
        (entries (trace (run Demo.handler main Demo.st_2_3))) /\
     In (E_ScaffoldServer pre'' 5 m (Returns 5))
        (entries (trace (run Demo.handler main Demo.st_2_3)))).
Proof.
  destruct (one_strategy_shared_by_server_and_simulation
              Demo.handler Demo.st_2_3) as (_ & T1 & T2 & T3 & T4).
  split; [apply T1; reflexivity | ].
  split; [do 3 eexists; eapply T2; demo_in | ].
  split; [eapply T3; demo_in | eapply T4; demo_in].
Defined.

(** C3 at work: with no client the dataset preparer raises, and that
    exception is how [main] ends. *)
Lemma exceptions_propagate_unhandled_witness :
  out (run Demo.handler main Demo.st_0_3) = Raised (Foreign "ZeroDivisionError") /\
  (exists ev,
      last_of (trace (run Demo.handler main Demo.st_0_3)) = Some ev /\
      raised ev = Some (Foreign "ZeroDivisionError")) /\
  failures (removelast (trace (run Demo.handler main Demo.st_0_3))) = [].
Proof.
  apply (proj1 (exceptions_propagate_unhandled Demo.handler Demo.st_0_3)).
  cbv. left. reflexivity.
Defined.

(** C4 at work: the four prints of a completed run. *)
Lemma stdout_of_a_completed_run_witness :
  exists yaml save_path history,
    printed (trace (run Demo.handler main Demo.st_2_3)) =
      [[PNode (VStr yaml)];
       [PNode (VStr save_notice); PNode (VStr save_path)];
       [PHistory history];
       [PNode (VStr save_notice); PNode (VStr save_path)]] /\
    hd_error (entries (trace (run Demo.handler main Demo.st_2_3))) =
      Some (E_to_yaml Demo.st_2_3 (settings Demo.st_2_3) (Returns yaml)) /\
    (exists pre hc,
        In (E_HydraConfig_get pre (Returns hc))
           (entries (trace (run Demo.handler main Demo.st_2_3))) /\
        getpath hc ["runtime"; "output_dir"] = Ok (VStr save_path)) /\
    (exists before sim after,
        trace (run Demo.handler main Demo.st_2_3) =
          (before ++ sim :: after)%list /\
        simulated [sim] = [history] /\
        printed before =
          [[PNode (VStr yaml)];
           [PNode (VStr save_notice); PNode (VStr save_path)]] /\
        printed after =
          [[PHistory history];
           [PNode (VStr save_notice); PNode (VStr save_path)]]).
Proof.
  apply (stdout_of_a_completed_run Demo.handler Demo.st_2_3).
  reflexivity.
Defined.

(** C5 at work: the history leaves the process through one print. *)
Lemma history_is_only_printed_witness :
  exists h,
    simulated (trace (run Demo.handler main Demo.st_2_3)) = [h] /\
    flat_map (@externalised _ _ _ _ _ _ _ _)
      (trace (run Demo.handler main Demo.st_2_3)) = [(N_print, h)].
Proof.
  apply (proj1 (proj2 (proj2
           (history_is_only_printed Demo.handler Demo.st_2_3)))).
  reflexivity.
Defined.

(** C9 at work: the only path in the log is the one handed to the
    client factory. *)
Lemma main_writes_no_file_witness :
  exists e,
    In e (trace (run Demo.handler main Demo.st_2_3)) /\
    In "outputs/run1/client_cvs" (paths_of e) /\
    name_of e = N_gen_client_fn /\
    exists pre hc save_path,
      In (E_HydraConfig_get pre (Returns hc))
         (entries (trace (run Demo.handler main Demo.st_2_3))) /\
      getpath hc ["runtime"; "output_dir"] = Ok (VStr save_path) /\
      "outputs/run1/client_cvs" = PosixPath.join save_path ["client_cvs"].
Proof.
  eexists. split; [cbv; do 5 right; left; reflexivity | ].
  split; [cbv; left; reflexivity | ].
  eapply (proj2 (proj2 (main_writes_no_file Demo.handler Demo.st_2_3)));
    [demo_in | cbv; left; reflexivity].
Defined.

(** C8 at work: the concrete handler leaves the settings alone, and so
    does the run. *)
Lemma settings_are_only_read_witness :
  (exists (pre : state Demo.World) config n v s,
      getpath (settings pre) ["dataset"] = Ok config /\
      getpath (settings pre) ["num_clients"] = Ok n /\
      getpath (settings pre) ["dataset"; "val_split"] = Ok v /\
      getpath (settings pre) ["dataset"; "seed"] = Ok s) /\
  (exists (pre : state Demo.World) ne lr m mo wd,
      getpath (settings pre) ["num_epochs"] = Ok ne /\
      getpath (settings pre) ["learning_rate"] = Ok lr /\
      getpath (settings pre) ["model"] = Ok m /\
      getpath (settings pre) ["momentum"] = Ok mo /\
      getpath (settings pre) ["weight_decay"] = Ok wd) /\
  (exists (pre : state Demo.World) dev m,
      getpath (settings pre) ["server_device"] = Ok dev /\
      getpath (settings pre) ["model"] = Ok m) /\
  (exists (pre : state Demo.World) scfg,
      getpath (settings pre) ["strategy"] = Ok scfg) /\
  (exists (pre : state Demo.World) m,
      getpath (settings pre) ["model"] = Ok m) /\
  (exists (pre : state Demo.World) nr,
      getpath (settings pre) ["num_rounds"] = Ok nr) /\
  (exists (pre : state Demo.World) n sc,
      (exists cpus gpus,
          [("num_cpus", VInt 4); ("num_gpus", VFloat (S754_zero false))] =
            [("num_cpus", cpus); ("num_gpus", gpus)] /\
          getpath (settings pre) ["client_resources"; "num_cpus"] = Ok cpus /\
          getpath (settings pre) ["client_resources"; "num_gpus"] = Ok gpus) /\
      (exists pre' nr,
          In (E_ServerConfig pre' nr (Returns sc))
             (entries (trace (run Demo.handler main Demo.st_2_3))) /\
          getpath (settings pre') ["num_clients"] = Ok n)) /\
  (settings (final (run Demo.handler main Demo.st_2_3)) =
     settings Demo.st_2_3 /\
   forall e, In e (trace (run Demo.handler main Demo.st_2_3)) ->
             settings (pre_of e) = settings Demo.st_2_3).
Proof.
  destruct (settings_are_only_read Demo.handler Demo.st_2_3)
    as (T1 & T2 & T3 & T4 & T5 & T6 & T7 & T8).
  split; [do 5 eexists; eapply T1; demo_in | ].
  split; [do 6 eexists; eapply T2; demo_in | ].
  split; [do 3 eexists; eapply T3; demo_in | ].
  split; [do 2 eexists; eapply T4; demo_in | ].
  split; [do 2 eexists; eapply T5; demo_in | ].
  split; [do 2 eexists; eapply T6; demo_in | ].
  split; [do 3 eexists; eapply T7; demo_in | ].
  apply T8. exact demo_handler_keeps_settings.
Defined.

(** C7 at work: zero rounds and zero clients are handed on as they are;
    a missing client surfaces only as the exception of the dataset
    preparer, a missing seed as the exception of reading it, and a
    missing output directory as the TypeError of the join. *)
Lemma sizes_are_forwarded_unchecked_witness :
  (exists pre : state Demo.World,
      getattr (settings pre) "num_clients" = Ok (VInt 0)) /\
  (exists pre : state Demo.World,
      getattr (settings pre) "num_rounds" = Ok (VInt 0)) /\
  (exists pre' nr,
      In (E_ServerConfig pre' nr (Returns 0%Z))
         (entries (trace (run Demo.handler main Demo.st_2_0))) /\
      getattr (settings pre') "num_clients" = Ok (VInt 2) /\
      getattr (settings pre') "num_rounds" = Ok nr) /\
  (In (Foreign "ZeroDivisionError")
      (failures (trace (run Demo.handler main Demo.st_0_3))) \/
   (failures (trace (run Demo.handler main Demo.st_0_3)) = [] /\
    exists path,
      In path required_paths /\
      getpath (settings (final (run Demo.handler main Demo.st_0_3))) path =
        Err (Foreign "ZeroDivisionError")) \/
   (failures (trace (run Demo.handler main Demo.st_0_3)) = [] /\
    exists pre hc,
      In (E_HydraConfig_get pre (Returns hc))
         (entries (trace (run Demo.handler main Demo.st_0_3))) /\
      (getpath hc ["runtime"; "output_dir"] =
         Err (Foreign "ZeroDivisionError") \/
       (Foreign "ZeroDivisionError" = TypeError /\
        exists v, getpath hc ["runtime"; "output_dir"] = Ok v /\
                  forall s, v <> VStr s)))) /\
  (In (MissingMandatoryValue "seed")
      (failures (trace (run Demo.handler main Edge.st_missing_seed))) \/
   (failures (trace (run Demo.handler main Edge.st_missing_seed)) = [] /\
    exists path,
      In path required_paths /\
      getpath (settings (final (run Demo.handler main Edge.st_missing_seed)))
        path = Err (MissingMandatoryValue "seed")) \/
   (failures (trace (run Demo.handler main Edge.st_missing_seed)) = [] /\
    exists pre hc,
      In (E_HydraConfig_get pre (Returns hc))
         (entries (trace (run Demo.handler main Edge.st_missing_seed))) /\
      (getpath hc ["runtime"; "output_dir"] =
         Err (MissingMandatoryValue "seed") \/
       (MissingMandatoryValue "seed" = TypeError /\
        exists v, getpath hc ["runtime"; "output_dir"] = Ok v /\
                  forall s, v <> VStr s)))) /\
  (In TypeError
      (failures (trace (run Edge.no_output_dir main Demo.st_2_3))) \/
   (failures (trace (run Edge.no_output_dir main Demo.st_2_3)) = [] /\
    exists path,
      In path required_paths /\
      getpath (settings (final (run Edge.no_output_dir main Demo.st_2_3)))
        path = Err TypeError) \/
   (failures (trace (run Edge.no_output_dir main Demo.st_2_3)) = [] /\
    exists pre hc,
      In (E_HydraConfig_get pre (Returns hc))
         (entries (trace (run Edge.no_output_dir main Demo.st_2_3))) /\
      (getpath hc ["runtime"; "output_dir"] = Err TypeError \/
       (TypeError = TypeError /\
        exists v, getpath hc ["runtime"; "output_dir"] = Ok v /\
                  forall s, v <> VStr s)))) /\
  (exists h,
      simulated (trace (run Demo.handler main Demo.st_2_0)) = [h] /\
      In [PHistory h] (printed (trace (run Demo.handler main Demo.st_2_0)))).
Proof.
  destruct (sizes_are_forwarded_unchecked Demo.handler Demo.st_2_0)
    as (_ & T2 & T3 & _ & _ & T6).
  destruct (sizes_are_forwarded_unchecked Demo.handler Demo.st_0_3)
    as (T1 & _ & _ & _ & T5 & _).
  destruct (sizes_are_forwarded_unchecked Demo.handler Edge.st_missing_seed)
    as (_ & _ & _ & _ & T5' & _).
  destruct (sizes_are_forwarded_unchecked Edge.no_output_dir Demo.st_2_3)
    as (_ & _ & _ & _ & T5'' & _).
  split; [eexists; eapply T1; demo_in | ].
  split; [eexists; eapply T2; demo_in | ].
  split; [eapply T3; demo_in | ].
  split; [apply T5; reflexivity | ].
  split; [apply T5'; reflexivity | ].
  split; [apply T5''; reflexivity | apply T6; reflexivity].
Defined.

(** C7, as the specification states it, fails.  With two clients and
    [num_rounds = 0] in a world whose simulation runner evaluates the
    initial parameters once (round 0) and then runs no round, [main] is not
    rejected and does not end on an empty history: it completes and prints
    a history with one entry. *)
Lemma zero_rounds_run_is_not_short_circuited :
  zero_clients_or_rounds (settings Demo.st_2_0) = true /\
  out (run Demo.handler main Demo.st_2_0) = Done tt /\
  simulated (trace (run Demo.handler main Demo.st_2_0)) = [[(0, 100)%Z]] /\
  rejected_or_short_circuited Demo.no_rounds
    (run Demo.handler main Demo.st_2_0) = false.
Proof. vm_compute. repeat split. Qed.

(* ------------------------------------------------------------------ *)
(** ** Further properties of [main] *)

Section MoreProperties.

Variables DataLoader ClientFn EvaluateFn Strategy Server SrvConfig : Type.
Variables History World : Type.
Variable handler :
  forall R : Type,
    call DataLoader ClientFn EvaluateFn Strategy Server SrvConfig History R ->
    state World -> reply R * state World.

Arguments getattr : simpl never.
Arguments PosixPath.join : simpl never.

(** X1.  A run of [main] completes exactly when it has made all thirteen
    calls of the source, in source order, and none of them raised or
    failed to return. *)
Theorem completed_iff_every_call_returned (st : state World) :
  let res := run handler main st in
  let tr := trace res in
  out res = Done tt <->
  (map (@name_of _ _ _ _ _ _ _ _) tr = call_order /\
   failures tr = [] /\
   existsb (@hung _ _ _ _ _ _ _ _) tr = false).
Proof.
  run_main.
  all: split; [intros Hdone; try discriminate Hdone; repeat split | ].
  all: intros (Hn & Hf & Hh); cbn in Hn, Hf, Hh;
    first [reflexivity | discriminate Hn | discriminate Hf | discriminate Hh].
Qed.

(** X2.  [main] returns when nothing outside it goes wrong: if the
    settings hold every path the source reads and the collaborators keep
    them so, if no call of the run raises or fails to return, and if Hydra
    reports the run output directory as a string, then the run
    completes. *)
Theorem main_completes_on_well_formed_settings (st : state World) :
  let res := run handler main st in
  (forall (R : Type) (c : call _ _ _ _ _ _ _ R) (s : state World),
      well_formed (settings s) = true ->
      well_formed (settings (snd (handler c s))) = true) ->
  well_formed (settings st) = true ->
  failures (trace res) = [] ->
  existsb (@hung _ _ _ _ _ _ _ _) (trace res) = false ->
  (forall pre hc,
      In (E_HydraConfig_get pre (Returns hc)) (entries (trace res)) ->
      names_output_dir hc = true) ->
  out res = Done tt.
Proof.
  run_main.
  all: intros Hinv Hwf Hfail Hhung Hhydra.
  all: try reflexivity.
  all: try (cbn in Hfail; discriminate Hfail).
  all: try (cbn in Hhung; discriminate Hhung).
  all: try (exfalso; well_formed_kept Hinv; read_cannot_fail; fail).
  all: exfalso;
    match goal with
    | H : _ _ HydraConfig_get ?s = (Returns ?hc, _) |- _ =>
        assert (X : names_output_dir hc = true)
          by (apply (Hhydra s); in_log);
        unfold names_output_dir in X; cbn [getpath] in X;
        repeat match goal with
               | Hr : getattr _ _ = _ |- _ => rewrite Hr in X
               end;
        discriminate X
    end.
Qed.

(** X3.  The run output directory is joined only after the save-path
    notice has been printed with it.  So when Hydra reports an output
    directory that is not a string, the client factory is never called and
    the simulation never started, the notice is printed with that value
    all the same, and once that print has returned the run ends in the
    TypeError of [os.path.join]. *)
Theorem a_non_string_output_dir_stops_main_after_the_notice
    (st : state World) :
  let res := run handler main st in
  let tr := trace res in
  forall pre hc v,
    In (E_HydraConfig_get pre (Returns hc)) (entries tr) ->
    getpath hc ["runtime"; "output_dir"] = Ok v ->
    (forall s, v <> VStr s) ->
    count N_gen_client_fn tr = 0 /\
    count N_start_simulation tr = 0 /\
    out res <> Done tt /\
    (exists pre' r,
        In (E_print pre' [PNode (VStr save_notice); PNode v] r)
           (entries tr)) /\
    (forall pre',
        In (E_print pre' [PNode (VStr save_notice); PNode v] (Returns tt))
           (entries tr) ->
        out res = Raised TypeError).
Proof.
  run_main.
  all: intros pre hc w HIn Hdir Hnot; from_entry HIn.
  all: cbn [getpath] in Hdir;
    repeat match goal with
           | Hr : getattr _ _ = _ |- _ => rewrite Hr in Hdir
           end;
    try discriminate Hdir; injection Hdir as <-.
  all: try (exfalso; eapply Hnot; reflexivity).
  all: split; [reflexivity | ]; split; [reflexivity | ];
    split; [discriminate | ]; split; [do 2 eexists; in_log | ].
  all: intros pre' HIn; split_in HIn; try reflexivity.
Qed.

(** X5.  [main] reads [cfg.num_clients] twice and [cfg.model] three
    times instead of keeping the first value.  When no collaborator
    changes the settings the readings agree: the number of partitions
    asked of [load_datasets] is the number of clients given to
    [start_simulation], and the client factory, the evaluation-function
    factory and the server are given the same model. *)
Theorem repeated_reads_agree (st : state World) :
  let tr := trace (run handler main st) in
  (forall (R : Type) (c : call _ _ _ _ _ _ _ R) (s : state World),
      settings (snd (handler c s)) = settings s) ->
  (forall pre config n v s r pre' server cf n' sc rs strategy r',
      In (E_load_datasets pre config n v s r) (entries tr) ->
      In (E_start_simulation pre' server cf n' sc rs strategy r')
         (entries tr) ->
      n = n') /\
  (forall pre tl vl ne lr m mo wd dir r pre' t dev m' r',
      In (E_gen_client_fn pre tl vl ne lr m mo wd dir r) (entries tr) ->
      In (E_gen_evaluate_fn pre' t dev m' r') (entries tr) ->
      m = m') /\
  (forall pre tl vl ne lr m mo wd dir r pre' strategy m' r',
      In (E_gen_client_fn pre tl vl ne lr m mo wd dir r) (entries tr) ->
      In (E_ScaffoldServer pre' strategy m' r') (entries tr) ->
      m = m').
Proof.
  run_main.
  all: intros Hpres; settings_kept Hpres.
  all: split; [intros pre config n vr sd rr pre' server cf n' sc rs strategy
                 rr' H1 H2; split_in H2; from_entry H1; injection H2 as <-;
               subst; congruence | ].
  all: split;
    [intros pre tl vl ne lr m mo wd dir rr pre' t dev m' rr' H1 H2;
     split_in H2; from_entry H1; injection H2 as <-; subst; congruence
    | intros pre tl vl ne lr m mo wd dir rr pre' strategy m' rr' H1 H2;
      split_in H2; from_entry H1; injection H2 as <-; subst; congruence].
Qed.

(** X6.  Everything [start_simulation] is handed was built earlier in the
    same run, from the one result of [load_datasets]: the client function
    is the one [gen_client_fn] returned for the two loader lists, the
    strategy is the one [instantiate] returned for the evaluation function
    that [gen_evaluate_fn] made from the test loader, the server is the
    one [ScaffoldServer] built around that strategy, and the server
    configuration is the one [ServerConfig] returned.  The simulation is
    started once. *)
Theorem simulation_runs_on_what_main_built (st : state World) :
  let tr := trace (run handler main st) in
  forall pre server cf n sc rs strategy r,
    In (E_start_simulation pre server cf n sc rs strategy r) (entries tr) ->
    count N_start_simulation tr = 1 /\
    exists tl vl t ef,
      (exists p config k v s,
          In (E_load_datasets p config k v s (Returns (tl, vl, t)))
             (entries tr)) /\
      (exists p ne lr m mo wd dir,
          In (E_gen_client_fn p tl vl ne lr m mo wd dir (Returns cf))
             (entries tr)) /\
      (exists p dev m,
          In (E_gen_evaluate_fn p t dev m (Returns ef)) (entries tr)) /\
      (exists p scfg,
          In (E_instantiate p scfg ef (Returns strategy)) (entries tr)) /\
      (exists p m,
          In (E_ScaffoldServer p strategy m (Returns server)) (entries tr)) /\
      (exists p nr,
          In (E_ServerConfig p nr (Returns sc)) (entries tr)).
Proof.
  run_main.
  all: intros pre server cf n sc rs strategy rr HIn; from_entry HIn.
  all: split; [reflexivity | ].
  all: do 4 eexists.
  all: split; [do 5 eexists; in_log | ].
  all: split; [do 7 eexists; in_log | ].
  all: split; [do 3 eexists; in_log | ].
  all: split; [do 2 eexists; in_log | ].
  all: split; do 2 eexists; in_log.
Qed.

(** X7.  The first thing [main] does is to render the settings it was
    given: every log starts with [OmegaConf.to_yaml] on the settings as
    they are on entry.  Whatever else a run calls, it calls after that
    text was handed to [print]; and the dataset, Hydra and every later
    collaborator are called only after that print has returned. *)
Theorem configuration_is_printed_first (st : state World) :
  let tr := trace (run handler main st) in
  (exists r, hd_error (entries tr) = Some (E_to_yaml st (settings st) r)) /\
  (forall e, In e tr -> name_of e <> N_to_yaml ->
     exists yaml,
       hd_error (entries tr) =
         Some (E_to_yaml st (settings st) (Returns yaml)) /\
       hd_error (printed tr) = Some [PNode (VStr yaml)]) /\
  (forall e, In e tr -> name_of e <> N_to_yaml -> name_of e <> N_print ->
     exists yaml pre,
       nth_error (entries tr) 1 =
         Some (E_print pre [PNode (VStr yaml)] (Returns tt))).
Proof.
  run_main.
  all: split; [eexists; reflexivity | ].
  all: split; intros e HIn; split_in HIn; subst e; cbn; intros;
    try congruence.
  all: try (eexists; split; reflexivity).
  all: repeat match goal with u : unit |- _ => destruct u end.
  all: do 2 eexists; reflexivity.
Qed.

End MoreProperties.

(* ------------------------------------------------------------------ *)
(** ** The further properties at work in the concrete worlds *)

(** The concrete handler keeps well-formed settings well formed. *)
Lemma demo_handler_keeps_well_formed
    (R : Type) (c : Demo.ext_call R) (s : state Demo.World) :
  well_formed (settings s) = true ->
  well_formed (settings (snd (Demo.handler c s))) = true.
Proof. rewrite demo_handler_keeps_settings. exact (fun H => H). Qed.

(** X1 at work: the run with two clients and three rounds completes, and
    its log names the thirteen calls. *)
Lemma completed_iff_every_call_returned_witness :
  (map (@name_of _ _ _ _ _ _ _ _)
       (trace (run Demo.handler main Demo.st_2_3)) = call_order /\
   failures (trace (run Demo.handler main Demo.st_2_3)) = [] /\
   existsb (@hung _ _ _ _ _ _ _ _)
     (trace (run Demo.handler main Demo.st_2_3)) = false) /\
  out (run Demo.handler main Demo.st_2_3) = Done tt.
Proof.
  split.
  - apply (proj1 (completed_iff_every_call_returned Demo.handler Demo.st_2_3)).
    reflexivity.
  - apply (proj2 (completed_iff_every_call_returned Demo.handler Demo.st_2_3)).
    repeat split.
Defined.

(** X2 at work: the concrete settings are well formed and the concrete
    collaborators all return. *)
Lemma main_completes_on_well_formed_settings_witness :
  out (run Demo.handler main Demo.st_2_3) = Done tt.
Proof.
  apply (main_completes_on_well_formed_settings Demo.handler Demo.st_2_3).
  - exact demo_handler_keeps_well_formed.
  - reflexivity.
  - reflexivity.
  - reflexivity.
  - intros pre hc H. cbv in H.
    repeat (destruct H as [H | H]; [try discriminate H | ]);
      try contradiction H.
    injection H as _ <-. reflexivity.
Defined.

(** X3 at work: Hydra reports no output directory; the notice is printed
    with [None] and the join raises. *)
Lemma a_non_string_output_dir_stops_main_after_the_notice_witness :
  count N_gen_client_fn (trace (run Edge.no_output_dir main Demo.st_2_3)) = 0 /\
  count N_start_simulation
    (trace (run Edge.no_output_dir main Demo.st_2_3)) = 0 /\
  out (run Edge.no_output_dir main Demo.st_2_3) <> Done tt /\
  (exists pre' r,
      In (E_print pre' [PNode (VStr save_notice); PNode VNone] r)
         (entries (trace (run Edge.no_output_dir main Demo.st_2_3)))) /\
  out (run Edge.no_output_dir main Demo.st_2_3) = Raised TypeError.
Proof.
  pose proof (a_non_string_output_dir_stops_main_after_the_notice
                Edge.no_output_dir Demo.st_2_3) as T.
  cbv zeta in T.
  specialize (T Demo.st_2_3
                (VDict [("runtime", VDict [("output_dir", VNone)])]) VNone).
  destruct T as (T1 & T2 & T3 & T4 & T5).
  - demo_in.
  - reflexivity.
  - intros s; discriminate.
  - split; [exact T1 | ]. split; [exact T2 | ]. split; [exact T3 | ].
    split; [exact T4 | ]. eapply T5. demo_in.
Defined.

(** X5 at work: two partitions asked for, two clients simulated, one
    model for clients and server. *)
Lemma repeated_reads_agree_witness :
  (exists pre config n v s r pre' server cf n' sc rs strategy r',
      In (E_load_datasets pre config n v s r)
         (entries (trace (run Demo.handler main Demo.st_2_3))) /\
      In (E_start_simulation pre' server cf n' sc rs strategy r')
         (entries (trace (run Demo.handler main Demo.st_2_3))) /\
      n = VInt 2 /\ n = n') /\
  (exists pre tl vl ne lr m mo wd dir r pre' t dev m' r',
      In (E_gen_client_fn pre tl vl ne lr m mo wd dir r)
         (entries (trace (run Demo.handler main Demo.st_2_3))) /\
      In (E_gen_evaluate_fn pre' t dev m' r')
         (entries (trace (run Demo.handler main Demo.st_2_3))) /\
      m = m') /\
  (exists pre tl vl ne lr m mo wd dir r pre' strategy m' r',
      In (E_gen_client_fn pre tl vl ne lr m mo wd dir r)
         (entries (trace (run Demo.handler main Demo.st_2_3))) /\
      In (E_ScaffoldServer pre' strategy m' r')
         (entries (trace (run Demo.handler main Demo.st_2_3))) /\
      m = m').
Proof.
  destruct (repeated_reads_agree Demo.handler Demo.st_2_3
              demo_handler_keeps_settings) as (T1 & T2 & T3).
  split; [ | split].
  - do 14 eexists. split; [demo_in | ]. split; [demo_in | ].
    split; [reflexivity | ]. eapply T1; demo_in.
  - do 15 eexists. split; [demo_in | ]. split; [demo_in | ].
    eapply T2; demo_in.
  - do 14 eexists. split; [demo_in | ]. split; [demo_in | ].
    eapply T3; demo_in.
Defined.

(** X6 at work: the parts the concrete simulation was started on. *)
Lemma simulation_runs_on_what_main_built_witness :
  count N_start_simulation (trace (run Demo.handler main Demo.st_2_3)) = 1 /\
  exists tl vl t ef,
    (exists p config k v s,
        In (E_load_datasets p config k v s (Returns (tl, vl, t)))
           (entries (trace (run Demo.handler main Demo.st_2_3)))) /\
    (exists p ne lr m mo wd dir,
        In (E_gen_client_fn p tl vl ne lr m mo wd dir
              (Returns "outputs/run1/client_cvs"))
           (entries (trace (run Demo.handler main Demo.st_2_3)))) /\
    (exists p dev m,
        In (E_gen_evaluate_fn p t dev m (Returns ef))
           (entries (trace (run Demo.handler main Demo.st_2_3)))) /\
    (exists p scfg,
        In (E_instantiate p scfg ef (Returns 5))
           (entries (trace (run Demo.handler main Demo.st_2_3)))) /\
    (exists p m,
        In (E_ScaffoldServer p 5 m (Returns 5))
           (entries (trace (run Demo.handler main Demo.st_2_3)))) /\
    (exists p nr,
        In (E_ServerConfig p nr (Returns 3%Z))
           (entries (trace (run Demo.handler main Demo.st_2_3)))).
Proof.
  eapply (simulation_runs_on_what_main_built Demo.handler Demo.st_2_3).
  demo_in.
Defined.

(** X7 at work: the dataset is loaded only after the YAML text has been
    printed. *)
Lemma configuration_is_printed_first_witness :
  (exists e,
      In e (trace (run Demo.handler main Demo.st_0_3)) /\
      name_of e = N_load_datasets /\
      exists yaml,
        hd_error (entries (trace (run Demo.handler main Demo.st_0_3))) =
          Some (E_to_yaml Demo.st_0_3 (settings Demo.st_0_3) (Returns yaml)) /\
        hd_error (printed (trace (run Demo.handler main Demo.st_0_3))) =
          Some [PNode (VStr yaml)]) /\
  (exists e,
      In e (trace (run Demo.handler main Demo.st_0_3)) /\
      name_of e = N_load_datasets /\
      exists yaml pre,
        nth_error (entries (trace (run Demo.handler main Demo.st_0_3))) 1 =
          Some (E_print pre [PNode (VStr yaml)] (Returns tt))).
Proof.
  destruct (configuration_is_printed_first Demo.handler Demo.st_0_3)
    as (_ & T2 & T3).
  split.
  - eexists. split; [cbv; do 2 right; left; reflexivity | ].
    match goal with
    | |- name_of ?e = _ /\ _ =>
        split; [reflexivity | apply (T2 e); [demo_in | discriminate]]
    end.
  - eexists. split; [cbv; do 2 right; left; reflexivity | ].
    match goal with
    | |- name_of ?e = _ /\ _ =>
        split; [reflexivity
               | apply (T3 e); [demo_in | discriminate | discriminate]]
    end.
Defined.
